(** * Ligand extraction ([inputs/ligand_extract.py])

    A shallow embedding of [extract_ligand] and of the part of its
    environment it talks to: the file system, standard output, and the
    parser and writer of the structure library ([Bio.PDB]).

    The script is Python, so its effects are made explicit: a computation
    is a function from a [World] to a new [World] and either a raised
    exception or a value.  The library is an interface ([BioPDB]); the
    general theorems hold for every implementation of it, and
    [Module Reference] gives one that follows the library's [Select]
    protocol.  [Module Shared] models the script once more with the
    parsed structure as one mutable object, for the question whether
    anything changes it. *)

From Stdlib Require Import ZArith String Ascii List.
From stdpp Require Import base list strings gmap pretty.

Local Open Scope Z_scope.
Local Open Scope string_scope.
Local Open Scope list_scope.

(** ** The structure hierarchy: models, chains, residues, atoms *)

(** A residue identifier: hetero flag, sequence number, insertion code. *)
Definition res_id : Type := string * Z * string.

Record Atom := mkAtom {
  atom_name : string;
  atom_body : string   (* coordinates, occupancy, B factor, element: opaque here *)
}.

Record Residue := mkResidue {
  r_id : res_id;
  resname : string;
  r_atoms : list Atom
}.

Record Chain := mkChain {
  c_id : string;
  c_residues : list Residue
}.

Record Model := mkModel {
  m_id : Z;
  serial_num : Z;
  m_chains : list Chain
}.

Definition Structure : Type := list Model.

(** ** Python values that reach the writer's [select] keyword *)

(** An object with the four methods the writer consults. *)
Record Select := mkSelect {
  accept_model : Model -> bool;
  accept_chain : Chain -> bool;
  accept_residue : Residue -> bool;
  accept_atom : Atom -> bool
}.

Inductive pyobj :=
| PyTuple (t : res_id)    (* a plain 3-tuple *)
| PySelect (s : Select).  (* an instance of a [Select] class *)

(** ** Exceptions *)

Inductive exn :=
| FileNotFoundError (file : string)
| IsADirectoryError (file : string)
| ValueError (msg : string)
| AttributeError (type_name attr : string)
| PDBIOException (msg : string)
| OtherError (msg : string).

(** ** Files, standard output, and the trace of actions *)

(** A structure file, record by record.  The column layout of a record
    is the library's business and is not modelled. *)
Inductive pdb_record :=
| RecModel (serial : Z)
| RecAtom (chain : string) (rname : string) (rid : res_id) (a : Atom)
| RecTer
| RecEndmdl
| RecEnd.

Inductive node :=
| File (records : list pdb_record)
| Directory.

(** Ghost events: the calls made, in order. *)
Inductive event :=
| EvParse (file : string)
| EvSetStructure (s : Structure)
| EvExamine (model : Z) (chain : string) (r : Residue)
| EvSave (s : Structure) (file : string) (select : pyobj)
| EvPrint (line : string).

Record World := mkWorld {
  fs : gmap string node;
  stdout : list string;
  trace : list event
}.

(** ** The library interface *)

(** [get_structure file] is [PDBParser(QUIET=True).get_structure(_, file)];
    [save s file select] is [PDBIO.save(file, select=select)] on a writer
    whose structure is [s].  Both act on the file system only. *)
Class BioPDB := {
  get_structure : string -> gmap string node -> exn + Structure;
  save : Structure -> string -> pyobj -> gmap string node ->
         gmap string node * option exn
}.

(** ** Computations *)

(** A computation over a state [S] either raises or returns; the state
    changes made before a [raise] stay. *)
Definition ST (S A : Type) : Type := S -> S * (exn + A).

Definition ret {S A} (a : A) : ST S A := fun w => (w, inr a).

Definition bind {S A B} (m : ST S A) (k : A -> ST S B) : ST S B :=
  fun w =>
    match m w with
    | (w', inr a) => k a w'
    | (w', inl e) => (w', inl e)
    end.

Definition raise {S A} (e : exn) : ST S A := fun w => (w, inl e).

(** The script runs over the [World]. *)
Definition M (A : Type) : Type := ST World A.

Declare Scope py_scope.
Delimit Scope py_scope with py.
Notation "x <- c ;; k" := (bind c (fun x => k))
  (at level 100, c at next level, right associativity) : py_scope.
Notation "c ;;; k" := (bind c (fun _ => k))
  (at level 100, right associativity) : py_scope.
Local Open Scope py_scope.

Definition log (e : event) (w : World) : World :=
  {| fs := fs w; stdout := stdout w; trace := trace w ++ [e] |}.

Definition emit (e : event) : M unit := fun w => (log e w, inr tt).

(** ** Python's [str] of an identifier tuple *)

Definition dquote : ascii := "034"%char.
Definition squote : ascii := "'"%char.
Definition backslash : ascii := "\"%char.

Fixpoint has_char (c : ascii) (s : string) : bool :=
  match s with
  | EmptyString => false
  | String d s' => Ascii.eqb c d || has_char c s'
  end.

Definition hex_digit (n : N) : ascii :=
  (if n <? 10 then ascii_of_N (48 + n) else ascii_of_N (87 + n))%N.

Definition hex_escape (n : N) : string :=
  String backslash (String "x"
    (String (hex_digit (n / 16)) (String (hex_digit (n mod 16)) EmptyString))).

(** One character of [repr] of a string whose code points are below 256. *)
Definition repr_char (quote c : ascii) : string :=
  let n := N_of_ascii c in
  if Ascii.eqb c quote || Ascii.eqb c backslash
  then String backslash (String c EmptyString)
  else if (n =? 9)%N then String backslash "t"
  else if (n =? 10)%N then String backslash "n"
  else if (n =? 13)%N then String backslash "r"
  else if (n <? 32)%N || (n =? 127)%N then hex_escape n
  else if (n <? 127)%N then String c EmptyString
  else if (n <=? 160)%N || (n =? 173)%N then hex_escape n
  else String c EmptyString.

Fixpoint repr_chars (quote : ascii) (s : string) : string :=
  match s with
  | EmptyString => EmptyString
  | String c s' => repr_char quote c +:+ repr_chars quote s'
  end.

Definition repr_str (s : string) : string :=
  let quote := if has_char squote s && negb (has_char dquote s)
               then dquote else squote in
  String quote (repr_chars quote s +:+ String quote EmptyString).

Definition repr_int (n : Z) : string := pretty n.

Definition str_id (t : res_id) : string :=
  let '(hetflag, resseq, icode) := t in
  "(" +:+ repr_str hetflag +:+ ", " +:+ repr_int resseq +:+ ", "
      +:+ repr_str icode +:+ ")".

(** ** The library objects the script creates *)

Definition parser_get_structure `{BioPDB} (file : string) : M Structure :=
  fun w =>
    match get_structure file (fs w) with
    | inl e => (log (EvParse file) w, inl e)
    | inr s => (log (EvParse file) w, inr s)
    end.

(** [io = PDB.PDBIO()]: a writer with no structure yet. *)
Record PDBIO := mkPDBIO { io_structure : option Structure }.

Definition PDBIO_new : PDBIO := {| io_structure := None |}.

Definition set_structure (io : PDBIO) (s : Structure) : M PDBIO :=
  emit (EvSetStructure s);;;
  ret {| io_structure := Some s |}.

Definition io_save `{BioPDB} (io : PDBIO) (file : string) (select : pyobj)
  : M unit :=
  match io_structure io with
  | None => raise (AttributeError "PDBIO" "structure")
  | Some s =>
      fun w =>
        let '(fs', r) := save s file select (fs w) in
        let w' := {| fs := fs'; stdout := stdout w;
                     trace := trace w ++ [EvSave s file select] |} in
        match r with
        | Some e => (w', inl e)
        | None => (w', inr tt)
        end
  end.

Definition print (line : string) : M unit :=
  fun w =>
    ({| fs := fs w; stdout := stdout w ++ [line];
        trace := trace w ++ [EvPrint line] |}, inr tt).

(** ** [extract_ligand] *)

(** What a loop body reports: it fell through, or it executed [return]. *)
Inductive flow := Next | Return.

Definition confirmation (ligand_id : res_id) (output_pdb : string) : string :=
  "Ligand '" +:+ str_id ligand_id +:+ "' extracted and saved to '"
    +:+ output_pdb +:+ "'".

Section Scan.
Context `{BioPDB}.
Variable io : PDBIO.
Variable ligand_id : res_id.
Variable output_pdb : string.

(** [for residue in chain: ...] (lines 12-16).  The comparison is
    logged as a ghost event; [select=ligand_id] hands the writer the
    identifier as it is, a tuple. *)
Fixpoint for_residues (model : Model) (chain : Chain)
         (residues : list Residue) : M flow :=
  match residues with
  | [] => ret Next
  | residue :: rest =>
      emit (EvExamine (m_id model) (c_id chain) residue);;;
      if bool_decide (r_id residue = ligand_id) then
        io_save io output_pdb (PyTuple ligand_id);;;
        print (confirmation ligand_id output_pdb);;;
        ret Return
      else for_residues model chain rest
  end.

(** [for chain in model: ...] (line 11); a [return] inside ends it. *)
Fixpoint for_chains (model : Model) (chains : list Chain) : M flow :=
  match chains with
  | [] => ret Next
  | chain :: rest =>
      f <- for_residues model chain (c_residues chain);;
      match f with
      | Return => ret Return
      | Next => for_chains model rest
      end
  end.

(** [for model in structure: ...] (line 10). *)
Fixpoint for_models (models : list Model) : M flow :=
  match models with
  | [] => ret Next
  | model :: rest =>
      f <- for_chains model (m_chains model);;
      match f with
      | Return => ret Return
      | Next => for_models rest
      end
  end.
End Scan.

(** [extract_ligand(input_pdb, ligand_id, output_pdb)] (lines 3-16):
    parse, give the writer the structure, scan. *)
Definition extract_ligand `{BioPDB}
  (input_pdb : string) (ligand_id : res_id) (output_pdb : string) : M unit :=
  structure <- parser_get_structure input_pdb;;
  io <- set_structure PDBIO_new structure;;
  for_models io ligand_id output_pdb structure;;;
  ret tt.

(** ** A reference implementation of the library interface

    The library is not part of the script.  This implementation follows
    its writer, which takes the [select] object and calls its
    [accept_model], [accept_chain], [accept_residue] and [accept_atom]
    methods while walking the structure, and a reader for the records
    that writer lays out. *)

Module Reference.

(** The writer's output buffer: the records written so far. *)
Definition W (A : Type) : Type := ST (list pdb_record) A.

Definition write (r : pdb_record) : W unit :=
  fun out => (out ++ [r], inr tt).

(** [select.accept_model(model)] and its siblings: attribute lookup on
    the object passed as [select], then the call. *)
Definition call_accept_model (select : pyobj) (m : Model) : W bool :=
  match select with
  | PySelect s => ret (accept_model s m)
  | PyTuple _ => raise (AttributeError "tuple" "accept_model")
  end.

Definition call_accept_chain (select : pyobj) (c : Chain) : W bool :=
  match select with
  | PySelect s => ret (accept_chain s c)
  | PyTuple _ => raise (AttributeError "tuple" "accept_chain")
  end.

Definition call_accept_residue (select : pyobj) (r : Residue) : W bool :=
  match select with
  | PySelect s => ret (accept_residue s r)
  | PyTuple _ => raise (AttributeError "tuple" "accept_residue")
  end.

Definition call_accept_atom (select : pyobj) (a : Atom) : W bool :=
  match select with
  | PySelect s => ret (accept_atom s a)
  | PyTuple _ => raise (AttributeError "tuple" "accept_atom")
  end.

Section Writer.
Variable select : pyobj.

(** Each loop returns whether it wrote an atom record. *)
Fixpoint save_atoms (chain : Chain) (residue : Residue)
         (atoms : list Atom) : W bool :=
  match atoms with
  | [] => ret false
  | atom :: rest =>
      ok <- call_accept_atom select atom;;
      if ok then
        write (RecAtom (c_id chain) (resname residue) (r_id residue) atom);;;
        save_atoms chain residue rest;;;
        ret true
      else save_atoms chain residue rest
  end.

Fixpoint save_residues (chain : Chain) (residues : list Residue) : W bool :=
  match residues with
  | [] => ret false
  | residue :: rest =>
      ok <- call_accept_residue select residue;;
      if ok then
        if (9999 <? snd (fst (r_id residue)))%Z
        then raise (PDBIOException "Residue number exceeds PDB format limit.")
        else
          a <- save_atoms chain residue (r_atoms residue);;
          b <- save_residues chain rest;;
          ret (a || b)
      else save_residues chain rest
  end.

Fixpoint save_chains (chains : list Chain) : W bool :=
  match chains with
  | [] => ret false
  | chain :: rest =>
      ok <- call_accept_chain select chain;;
      if ok then
        if (1 <? String.length (c_id chain))%nat
        then raise (PDBIOException "Chain id exceeds PDB format limit.")
        else
          a <- save_residues chain (c_residues chain);;
          (if a then write RecTer else ret tt);;;
          b <- save_chains rest;;
          ret (a || b)
      else save_chains rest
  end.

Fixpoint save_models (model_flag : bool) (models : list Model) : W unit :=
  match models with
  | [] => ret tt
  | model :: rest =>
      ok <- call_accept_model select model;;
      if ok then
        (if model_flag then write (RecModel (serial_num model)) else ret tt);;;
        a <- save_chains (m_chains model);;
        (if model_flag && a then write RecEndmdl else ret tt);;;
        save_models model_flag rest
      else save_models model_flag rest
  end.
End Writer.

(** [PDBIO.save(file, select)]: open [file] for writing (creating or
    truncating it), walk the structure consulting [select], write the
    closing record.  What was written before an exception stays.

    The files are the entries of one directory, each under its name:
    opening fails here only when the name is that of a directory.
    Paths through other directories, links, and permissions are not
    modelled. *)
Definition PDBIO_save (s : Structure) (file : string) (select : pyobj)
           (files : gmap string node) : gmap string node * option exn :=
  match files !! file with
  | Some Directory => (files, Some (IsADirectoryError file))
  | _ =>
      let body :=
        save_models select (1 <? length s)%nat s;;;
        write RecEnd in
      match body [] with
      | (out, inl e) => (<[file := File out]> files, Some e)
      | (out, inr _) => (<[file := File out]> files, None)
      end
  end.

(** The reader: records grouped by model, chain and residue, as the
    writer lays them out. *)
Definition add_atom_to_residues (rname : string) (rid : res_id) (a : Atom)
           (rs : list Residue) : list Residue :=
  match reverse rs with
  | last :: before =>
      if bool_decide (r_id last = rid) && String.eqb (resname last) rname
      then reverse before ++
           [{| r_id := rid; resname := rname; r_atoms := r_atoms last ++ [a] |}]
      else rs ++ [{| r_id := rid; resname := rname; r_atoms := [a] |}]
  | [] => [{| r_id := rid; resname := rname; r_atoms := [a] |}]
  end.

Definition add_atom_to_chains (chain rname : string) (rid : res_id) (a : Atom)
           (cs : list Chain) : list Chain :=
  match reverse cs with
  | last :: before =>
      if String.eqb (c_id last) chain
      then reverse before ++
           [{| c_id := chain;
               c_residues := add_atom_to_residues rname rid a (c_residues last) |}]
      else cs ++ [{| c_id := chain;
                     c_residues := add_atom_to_residues rname rid a [] |}]
  | [] => [{| c_id := chain;
              c_residues := add_atom_to_residues rname rid a [] |}]
  end.

(** Parser state: the models closed so far, and the open model if any. *)
Fixpoint parse_records (closed : list Model) (open : option Model)
         (records : list pdb_record) : Structure :=
  let finish := match open with Some m => closed ++ [m] | None => closed end in
  match records with
  | [] => finish
  | RecEnd :: _ => finish
  | RecModel serial :: rest =>
      parse_records finish
        (Some {| m_id := Z.of_nat (length finish); serial_num := serial;
                 m_chains := [] |}) rest
  | RecEndmdl :: rest => parse_records finish None rest
  | RecTer :: rest => parse_records closed open rest
  | RecAtom chain rname rid a :: rest =>
      let m := match open with
               | Some m => m
               | None => {| m_id := Z.of_nat (length closed);
                            serial_num := Z.of_nat (length closed) + 1;
                            m_chains := [] |}
               end in
      parse_records closed
        (Some {| m_id := m_id m; serial_num := serial_num m;
                 m_chains := add_atom_to_chains chain rname rid a (m_chains m) |})
        rest
  end.

Definition PDBParser_get_structure (file : string)
           (files : gmap string node) : exn + Structure :=
  match files !! file with
  | None => inl (FileNotFoundError file)
  | Some Directory => inl (IsADirectoryError file)
  | Some (File []) => inl (ValueError "Empty file.")
  | Some (File records) => inr (parse_records [] None records)
  end.

#[export] Instance lib : BioPDB :=
  {| get_structure := PDBParser_get_structure; save := PDBIO_save |}.

(** Any parser paired with the reference writer. *)
Definition with_parser
  (parse : string -> gmap string node -> exn + Structure) : BioPDB :=
  {| get_structure := parse; save := PDBIO_save |}.

End Reference.

(** ** A selection object for one identifier *)

(** What the library's protocol asks for in place of the tuple: an
    object whose [accept_residue] compares the identifier. *)
Definition select_by_id (t : res_id) : Select :=
  {| accept_model := fun _ => true;
     accept_chain := fun _ => true;
     accept_residue := fun r => bool_decide (r_id r = t);
     accept_atom := fun _ => true |}.

(** ** Iteration order *)

(** A residue as the scan meets it: model id, chain id, residue. *)
Definition entry : Type := Z * string * Residue.

Definition chain_entries (model : Model) (chain : Chain) : list entry :=
  map (fun r => (m_id model, c_id chain, r)) (c_residues chain).

Definition model_entries (model : Model) : list entry :=
  flat_map (chain_entries model) (m_chains model).

(** Model order, then chain order, then residue order. *)
Definition entries (s : Structure) : list entry :=
  flat_map model_entries s.

Definition entry_id (e : entry) : res_id := r_id (snd e).

Definition examine (e : entry) : event :=
  let '(m, c, r) := e in EvExamine m c r.

(** Some residue of [s] carries the identifier [t]. *)
Definition has_match (t : res_id) (s : Structure) : Prop :=
  exists m c r, In m s /\ In c (m_chains m) /\ In r (c_residues c) /\ r_id r = t.

Definition has_matchb (t : res_id) (s : Structure) : bool :=
  existsb (fun e => bool_decide (entry_id e = t)) (entries s).

(** The residues of [s] carrying the identifier [t], in iteration order. *)
Definition matching (t : res_id) (s : Structure) : list entry :=
  filter (fun e => entry_id e = t) (entries s).

(** ** Reading a trace *)

Definition add_events (evs : list event) (w : World) : World :=
  {| fs := fs w; stdout := stdout w; trace := trace w ++ evs |}.

(** The events and the output lines a run added. *)
Definition new_events (w w' : World) : list event :=
  drop (length (trace w)) (trace w').

Definition new_lines (w w' : World) : list string :=
  drop (length (stdout w)) (stdout w').

Definition is_save (ev : event) : bool :=
  match ev with EvSave _ _ _ => true | _ => false end.

Definition is_print (ev : event) : bool :=
  match ev with EvPrint _ => true | _ => false end.

Definition examined (evs : list event) : list entry :=
  flat_map (fun ev => match ev with
                      | EvExamine m c r => [(m, c, r)]
                      | _ => []
                      end) evs.


(** The events of a run up to the last comparison, [seen] being the
    residues compared. *)
Definition scan_events (input_pdb : string) (s : Structure)
           (seen : list entry) : list event :=
  EvParse input_pdb :: EvSetStructure s :: map examine seen.

(** ** The scan over the flattened structure *)

Section Flat.
Context `{BioPDB}.
Variable io : PDBIO.
Variable ligand_id : res_id.
Variable output_pdb : string.

(** What the scan does once it has met a match. *)
Definition on_match : M flow :=
  io_save io output_pdb (PyTuple ligand_id);;;
  print (confirmation ligand_id output_pdb);;;
  ret Return.

(** The three nested loops as one loop over [entries]. *)
Fixpoint scan (es : list entry) : M flow :=
  match es with
  | [] => ret Next
  | e :: rest =>
      emit (examine e);;;
      if bool_decide (entry_id e = ligand_id) then on_match
      else scan rest
  end.

(** Run [k] unless the loop before it has returned. *)
Definition and_then (m k : M flow) : M flow :=
  f <- m;;
  match f with
  | Return => ret Return
  | Next => k
  end.
End Flat.

(** ** The four ways a run can go *)

(** [run_of input lig out w res]: from [w], a run ends in [res].  Either
    the parser raises; or nothing matches; or the first match is found
    and the writer raises; or the first match is found, the writer
    returns and the confirmation is printed. *)
Inductive run_of `{BioPDB} (input_pdb : string) (ligand_id : res_id)
          (output_pdb : string) (w : World) : World * (exn + unit) -> Prop :=
| RunParseError (e : exn) :
    get_structure input_pdb (fs w) = inl e ->
    run_of input_pdb ligand_id output_pdb w
      (add_events [EvParse input_pdb] w, inl e)
| RunNoMatch (s : Structure) :
    get_structure input_pdb (fs w) = inr s ->
    ~ has_match ligand_id s ->
    run_of input_pdb ligand_id output_pdb w
      (add_events (scan_events input_pdb s (entries s)) w, inr tt)
| RunSaveRaises (s : Structure) (pre rest : list entry) (hit : entry)
                (fs' : gmap string node) (e : exn) :
    get_structure input_pdb (fs w) = inr s ->
    entries s = pre ++ hit :: rest ->
    Forall (fun x => entry_id x <> ligand_id) pre ->
    entry_id hit = ligand_id ->
    save s output_pdb (PyTuple ligand_id) (fs w) = (fs', Some e) ->
    run_of input_pdb ligand_id output_pdb w
      ({| fs := fs'; stdout := stdout w;
          trace := trace w ++ scan_events input_pdb s (pre ++ [hit])
                     ++ [EvSave s output_pdb (PyTuple ligand_id)] |},
       inl e)
| RunSaved (s : Structure) (pre rest : list entry) (hit : entry)
           (fs' : gmap string node) :
    get_structure input_pdb (fs w) = inr s ->
    entries s = pre ++ hit :: rest ->
    Forall (fun x => entry_id x <> ligand_id) pre ->
    entry_id hit = ligand_id ->
    save s output_pdb (PyTuple ligand_id) (fs w) = (fs', None) ->
    run_of input_pdb ligand_id output_pdb w
      ({| fs := fs';
          stdout := stdout w ++ [confirmation ligand_id output_pdb];
          trace := trace w ++ scan_events input_pdb s (pre ++ [hit])
                     ++ [EvSave s output_pdb (PyTuple ligand_id);
                         EvPrint (confirmation ligand_id output_pdb)] |},
       inr tt).

(** ** Sample inputs *)

Module Sample.

Definition input_pdb : string := "your_structure.pdb".
Definition output_pdb : string := "extracted_ligand.pdb".
Definition ligand_id : res_id := (" ", 1, " ").

Definition N_ : Atom := {| atom_name := "N"; atom_body := "11.104  13.207   2.100" |}.
Definition CA : Atom := {| atom_name := "CA"; atom_body := "12.560  13.300   2.300" |}.
Definition C1 : Atom := {| atom_name := "C1"; atom_body := "20.001   5.500   7.250" |}.
Definition O1 : Atom := {| atom_name := "O1"; atom_body := "21.310   5.120   7.900" |}.

(** Chain A: two protein residues, then the ligand [(" ", 1, " ")]. *)
Definition chain_A_records : list pdb_record :=
  [ RecAtom "A" "ALA" (" ", 10, " ") N_;
    RecAtom "A" "ALA" (" ", 10, " ") CA;
    RecAtom "A" "GLY" (" ", 11, " ") N_;
    RecAtom "A" "LIG" (" ", 1, " ") C1;
    RecAtom "A" "LIG" (" ", 1, " ") O1 ].

Definition single_records : list pdb_record :=
  chain_A_records ++ [RecTer; RecEnd].

(** An ensemble: the same chain in two models. *)
Definition ensemble_records : list pdb_record :=
  [RecModel 1] ++ chain_A_records ++ [RecTer; RecEndmdl] ++
  [RecModel 2] ++ chain_A_records ++ [RecTer; RecEndmdl; RecEnd].

(** A chain without the identifier. *)
Definition protein_records : list pdb_record :=
  [ RecAtom "A" "ALA" (" ", 10, " ") N_;
    RecAtom "A" "ALA" (" ", 10, " ") CA;
    RecAtom "A" "GLY" (" ", 11, " ") N_;
    RecTer; RecEnd ].

Definition ligand : Residue :=
  {| r_id := ligand_id; resname := "LIG"; r_atoms := [C1; O1] |}.

Definition world_of (records : list pdb_record) : World :=
  {| fs := {[ input_pdb := File records ]}; stdout := []; trace := [] |}.

(** The structures the reference parser reads from these files. *)
Definition single_structure : Structure :=
  Reference.parse_records [] None single_records.
Definition ensemble_structure : Structure :=
  Reference.parse_records [] None ensemble_records.
Definition protein_structure : Structure :=
  Reference.parse_records [] None protein_records.

Definition single : World := world_of single_records.
Definition ensemble : World := world_of ensemble_records.
Definition protein_only : World := world_of protein_records.



(** No input file at all. *)
Definition empty_disk : World := {| fs := ∅; stdout := []; trace := [] |}.

End Sample.

(** ** The script run as a program *)

(** The three constants of the entry point (lines 19-21). *)
Definition input_pdb_file : string := "your_structure.pdb".
Definition ligand_identifier : res_id := (" ", 1, " ").
Definition output_pdb_file : string := "extracted_ligand.pdb".

(** The body under [if __name__ == "__main__":] (line 23). *)
Definition main `{BioPDB} : M unit :=
  extract_ligand input_pdb_file ligand_identifier output_pdb_file.

(** ** Reading a confirmation back *)

(** The inverse of [repr_char]: the value of a hexadecimal digit, and the
    characters of a quoted string up to its closing quote, escapes
    undone, together with what follows the quote. *)
Definition hex_value (c : ascii) : option N :=
  let n := N_of_ascii c in
  if ((48 <=? n) && (n <=? 57))%N then Some (n - 48)%N
  else if ((97 <=? n) && (n <=? 102))%N then Some (n - 87)%N
  else None.

Definition push (c : ascii) (r : option (string * string))
  : option (string * string) :=
  match r with
  | Some (s, rest) => Some (String c s, rest)
  | None => None
  end.

Fixpoint read_chars (quote : ascii) (s : string) : option (string * string) :=
  match s with
  | EmptyString => None
  | String c rest =>
      if Ascii.eqb c quote then Some (EmptyString, rest)
      else if Ascii.eqb c backslash then
        match rest with
        | EmptyString => None
        | String d rest' =>
            if Ascii.eqb d "t" then push "009" (read_chars quote rest')
            else if Ascii.eqb d "n" then push "010" (read_chars quote rest')
            else if Ascii.eqb d "r" then push "013" (read_chars quote rest')
            else if Ascii.eqb d "x" then
              match rest' with
              | String a (String b rest'') =>
                  match hex_value a, hex_value b with
                  | Some x, Some y =>
                      push (ascii_of_N (16 * x + y)) (read_chars quote rest'')
                  | _, _ => None
                  end
              | _ => None
              end
            else push d (read_chars quote rest')
        end
      else push c (read_chars quote rest)
  end.

(** A quoted string at the front of [s]. *)
Definition read_repr (s : string) : option (string * string) :=
  match s with
  | String q body =>
      if Ascii.eqb q squote || Ascii.eqb q dquote then read_chars q body
      else None
  | EmptyString => None
  end.

(** The text before the first comma, and the text after it. *)
Fixpoint split_comma (s : string) : option (string * string) :=
  match s with
  | EmptyString => None
  | String c rest =>
      if Ascii.eqb c "," then Some (EmptyString, rest)
      else push c (split_comma rest)
  end.

(** An identifier tuple at the front of [s], as [str] writes it: the two
    strings, the digits of the number, and what follows the tuple. *)
Definition read_id (s : string) : option (string * string * string * string) :=
  match s with
  | String "(" s1 =>
      match read_repr s1 with
      | Some (hetflag, String "," (String " " s2)) =>
          match split_comma s2 with
          | Some (digits, String " " s3) =>
              match read_repr s3 with
              | Some (icode, String ")" rest) =>
                  Some (hetflag, digits, icode, rest)
              | _ => None
              end
          | _ => None
          end
      | _ => None
      end
  | _ => None
  end.

(** ** The structure as a shared, mutable object *)

(** In Python the parsed structure is one object: the variable
    [structure] and the writer's [io.structure] both name it, and any
    call handed the object could change it in place.  Here that object
    is a cell of the world, and the library calls return what they leave
    of it. *)
Module Shared.

Record OWorld := mkOWorld {
  base : World;
  object : option Structure;   (* the structure object, once parsed *)
  history : list Structure     (* ghost: the object's value, step by step *)
}.

(** The library, object by object: [obj_set_structure s] is the object
    after [io.set_structure], [obj_save] returns the file system, the
    object after the call, and the exception if any. *)
Class BioPDBObj := {
  obj_get_structure : string -> gmap string node -> exn + Structure;
  obj_set_structure : Structure -> Structure;
  obj_save : Structure -> string -> pyobj -> gmap string node ->
             gmap string node * Structure * option exn
}.

(** A library that leaves the object handed to it as it is. *)
Definition read_only (L : BioPDBObj) : Prop :=
  (forall s, obj_set_structure s = s)
  /\ (forall s file select files,
        snd (fst (obj_save s file select files)) = s).



Definition OM (A : Type) : Type := ST OWorld A.

Definition start (w : World) : OWorld :=
  {| base := w; object := None; history := [] |}.

(** An action on files, output and trace only. *)
Definition in_base {A} (m : M A) : OM A :=
  fun ow =>
    let '(w', r) := m (base ow) in
    ({| base := w'; object := object ow; history := history ow |}, r).

(** Ghost: note the object's present value. *)
Definition snapshot : OM unit :=
  fun ow =>
    ({| base := base ow; object := object ow;
        history := history ow ++ match object ow with
                                 | Some s => [s]
                                 | None => []
                                 end |}, inr tt).

(** Reading the variable [structure]. *)
Definition deref : OM Structure :=
  fun ow =>
    match object ow with
    | Some s => (ow, inr s)
    | None => (ow, inl (OtherError "name 'structure' is not defined"))
    end.

(** [structure = parser.get_structure('structure', input_pdb)] (line 5). *)
Definition parser_get_structure `{BioPDBObj} (file : string) : OM unit :=
  fun ow =>
    match obj_get_structure file (fs (base ow)) with
    | inl e =>
        ({| base := log (EvParse file) (base ow); object := object ow;
            history := history ow |}, inl e)
    | inr s =>
        ({| base := log (EvParse file) (base ow); object := Some s;
            history := history ow ++ [s] |}, inr tt)
    end.

(** [io.set_structure(structure)] (line 8): the writer keeps a reference
    to the object, and may change the object. *)
Definition set_structure `{BioPDBObj} : OM unit :=
  fun ow =>
    match object ow with
    | None => (ow, inl (OtherError "name 'structure' is not defined"))
    | Some s =>
        ({| base := log (EvSetStructure s) (base ow);
            object := Some (obj_set_structure s);
            history := history ow ++ [obj_set_structure s] |}, inr tt)
    end.

(** [io.save(file, select=select)] (line 14) on the object the writer
    refers to. *)
Definition io_save `{BioPDBObj} (file : string) (select : pyobj) : OM unit :=
  fun ow =>
    match object ow with
    | None => (ow, inl (AttributeError "PDBIO" "structure"))
    | Some s =>
        let '(files', s', r) := obj_save s file select (fs (base ow)) in
        let ow' :=
          {| base := {| fs := files'; stdout := stdout (base ow);
                        trace := trace (base ow) ++ [EvSave s file select] |};
             object := Some s';
             history := history ow ++ [s'] |} in
        match r with
        | Some e => (ow', inl e)
        | None => (ow', inr tt)
        end
    end.

Section Scan.
Context `{BioPDBObj}.
Variable ligand_id : res_id.
Variable output_pdb : string.

(** The loops of lines 10-16 again.  They walk the models, chains and
    residues the object holds when the outer loop starts: until
    [io.save] nothing is called that could change it, and after
    [io.save] the function returns. *)
Fixpoint for_residues (model : Model) (chain : Chain)
         (residues : list Residue) : OM flow :=
  match residues with
  | [] => ret Next
  | residue :: rest =>
      snapshot;;;
      in_base (emit (EvExamine (m_id model) (c_id chain) residue));;;
      if bool_decide (r_id residue = ligand_id) then
        io_save output_pdb (PyTuple ligand_id);;;
        in_base (print (confirmation ligand_id output_pdb));;;
        ret Return
      else for_residues model chain rest
  end.

Fixpoint for_chains (model : Model) (chains : list Chain) : OM flow :=
  match chains with
  | [] => ret Next
  | chain :: rest =>
      f <- for_residues model chain (c_residues chain);;
      match f with
      | Return => ret Return
      | Next => for_chains model rest
      end
  end.

Fixpoint for_models (models : list Model) : OM flow :=
  match models with
  | [] => ret Next
  | model :: rest =>
      f <- for_chains model (m_chains model);;
      match f with
      | Return => ret Return
      | Next => for_models rest
      end
  end.
End Scan.

(** [extract_ligand] (lines 3-16) over the shared object. *)
Definition extract_ligand `{BioPDBObj}
  (input_pdb : string) (ligand_id : res_id) (output_pdb : string) : OM unit :=
  parser_get_structure input_pdb;;;
  set_structure;;;
  structure <- deref;;
  for_models ligand_id output_pdb structure;;;
  ret tt.

(** A writer that strips the object of its models while saving. *)
Definition stripping (lib : BioPDB) : BioPDBObj :=
  {| obj_get_structure := get_structure;
     obj_set_structure := fun s => s;
     obj_save := fun s file select files =>
                   let '(files', r) := save s file select files in
                   (files', [], r) |}.

End Shared.

(** * Properties *)

(** ** The nested loops are one scan in iteration order *)

Section FlatFacts.
Context `{BioPDB}.
Variable io : PDBIO.
Variable ligand_id : res_id.
Variable output_pdb : string.

Local Abbreviation run_scan := (scan io ligand_id output_pdb).
Local Abbreviation matched := (on_match io ligand_id output_pdb).

Lemma and_then_ext (m m' k k' : M flow) (w : World) :
  (forall v, m v = m' v) -> (forall v, k v = k' v) ->
  and_then m k w = and_then m' k' w.
Proof.
  intros Hm Hk. unfold and_then, bind. rewrite Hm.
  destruct (m' w) as [w' [e | [ | ]]]; auto.
Qed.

(** After a match the loop never falls through. *)
Lemma on_match_returns (w : World) :
  match matched w with
  | (_, inr Next) => False
  | _ => True
  end.
Proof.
  unfold on_match, bind, io_save, print, ret, raise.
  destruct (io_structure io) as [s | ]; [ | exact I].
  destruct (save s output_pdb (PyTuple ligand_id) (fs w)) as [fs' [e | ]];
    exact I.
Qed.

Lemma and_then_on_match (k : M flow) (w : World) :
  and_then matched k w = matched w.
Proof.
  unfold and_then, bind. pose proof (on_match_returns w) as Hr.
  destruct (matched w) as [w' [e | [ | ]]]; [reflexivity | contradiction | reflexivity].
Qed.

Lemma scan_app (es1 es2 : list entry) (w : World) :
  run_scan (es1 ++ es2) w = and_then (run_scan es1) (run_scan es2) w.
Proof.
  revert w. induction es1 as [ | e es1 IH]; intros w.
  - reflexivity.
  - cbn [app scan].
    pose proof (and_then_on_match (run_scan es2) (log (examine e) w)) as Hm.
    unfold and_then, bind, emit in IH, Hm |- *.
    destruct (bool_decide (entry_id e = ligand_id)).
    + symmetry. exact Hm.
    + apply IH.
Qed.

Lemma for_residues_scan (model : Model) (chain : Chain)
      (residues : list Residue) (w : World) :
  for_residues io ligand_id output_pdb model chain residues w
  = run_scan (map (fun r => (m_id model, c_id chain, r)) residues) w.
Proof.
  revert w. induction residues as [ | r rs IH]; intros w.
  - reflexivity.
  - cbn [for_residues map scan]. unfold on_match.
    change (entry_id (m_id model, c_id chain, r)) with (r_id r).
    change (examine (m_id model, c_id chain, r))
      with (EvExamine (m_id model) (c_id chain) r).
    unfold bind at 1 4. unfold emit.
    destruct (bool_decide (r_id r = ligand_id)); [reflexivity | apply IH].
Qed.

Lemma for_chains_scan (model : Model) (chains : list Chain) (w : World) :
  for_chains io ligand_id output_pdb model chains w
  = run_scan (flat_map (chain_entries model) chains) w.
Proof.
  revert w. induction chains as [ | c cs IH]; intros w.
  - reflexivity.
  - cbn [for_chains flat_map]. rewrite scan_app.
    apply (and_then_ext _ _ _ _ w); [ | exact IH].
    intros v. apply for_residues_scan.
Qed.

Lemma for_models_scan (s : Structure) (w : World) :
  for_models io ligand_id output_pdb s w = run_scan (entries s) w.
Proof.
  revert w. induction s as [ | m ms IH]; intros w.
  - reflexivity.
  - cbn [for_models]. unfold entries. cbn [flat_map]. rewrite scan_app.
    apply (and_then_ext _ _ _ _ w); [ | exact IH].
    intros v. apply for_chains_scan.
Qed.

(** No entry matches: every entry is examined and the loop falls through. *)
Lemma scan_no_match (es : list entry) (w : World) :
  Forall (fun e => entry_id e <> ligand_id) es ->
  run_scan es w = (add_events (map examine es) w, inr Next).
Proof.
  intros Hall. revert w. induction Hall as [ | e es He _ IH]; intros w.
  - unfold add_events. cbn. rewrite app_nil_r. now destruct w.
  - cbn [scan map]. unfold bind, emit.
    rewrite bool_decide_eq_false_2 by exact He.
    rewrite IH. unfold add_events, log. cbn. now rewrite <- app_assoc.
Qed.

(** A first match: the entries before it and the match itself are
    examined, and the scan hands over to [on_match]. *)
Lemma scan_first_match (pre rest : list entry) (hit : entry) (w : World) :
  Forall (fun e => entry_id e <> ligand_id) pre ->
  entry_id hit = ligand_id ->
  run_scan (pre ++ hit :: rest) w
  = matched (add_events (map examine (pre ++ [hit])) w).
Proof.
  intros Hall Hhit. revert w. induction Hall as [ | e es He _ IH]; intros w.
  - cbn [app scan map]. unfold bind at 1, emit.
    rewrite bool_decide_eq_true_2 by exact Hhit. reflexivity.
  - cbn [app scan map]. unfold bind at 1, emit.
    rewrite bool_decide_eq_false_2 by exact He.
    rewrite IH. unfold add_events, log. cbn. now rewrite <- app_assoc.
Qed.
End FlatFacts.

(** ** Matches and iteration order *)

Lemma in_entries (s : Structure) (e : entry) :
  In e (entries s) <->
  exists m c r, In m s /\ In c (m_chains m) /\ In r (c_residues c)
                /\ e = (m_id m, c_id c, r).
Proof.
  unfold entries, model_entries, chain_entries. rewrite in_flat_map. split.
  - intros (m & Hm & He). apply in_flat_map in He as (c & Hc & He).
    apply in_map_iff in He as (r & <- & Hr). now exists m, c, r.
  - intros (m & c & r & Hm & Hc & Hr & ->). exists m. split; [exact Hm | ].
    apply in_flat_map. exists c. split; [exact Hc | ].
    apply in_map_iff. now exists r.
Qed.

Lemma has_match_Exists (t : res_id) (s : Structure) :
  has_match t s <-> Exists (fun e => entry_id e = t) (entries s).
Proof.
  rewrite List.Exists_exists. split.
  - intros (m & c & r & Hm & Hc & Hr & Hid). exists (m_id m, c_id c, r).
    split; [ | exact Hid]. apply in_entries. now exists m, c, r.
  - intros (e & He & Hid). apply in_entries in He as (m & c & r & Hm & Hc & Hr & ->).
    now exists m, c, r.
Qed.

Lemma no_match_Forall (t : res_id) (s : Structure) :
  ~ has_match t s <-> Forall (fun e => entry_id e <> t) (entries s).
Proof.
  rewrite has_match_Exists. split.
  - intros Hn. apply List.Forall_forall. intros e He Hid. apply Hn.
    apply List.Exists_exists. now exists e.
  - intros Hall Hex. apply List.Exists_exists in Hex as (e & He & Hid).
    rewrite List.Forall_forall in Hall. exact (Hall e He Hid).
Qed.

Lemma has_matchb_spec (t : res_id) (s : Structure) :
  has_matchb t s = true <-> has_match t s.
Proof.
  unfold has_matchb. rewrite has_match_Exists, List.existsb_exists, List.Exists_exists.
  split; intros (e & He & Hid); exists e; (split; [exact He | ]).
  - apply bool_decide_eq_true in Hid. exact Hid.
  - apply bool_decide_eq_true. exact Hid.
Qed.

Lemma has_match_dec (t : res_id) (s : Structure) :
  has_match t s \/ ~ has_match t s.
Proof.
  destruct (has_matchb t s) eqn:Hb.
  - left. now apply has_matchb_spec.
  - right. intros Hm. apply has_matchb_spec in Hm. congruence.
Qed.

(** A list with a match splits at its first match. *)
Lemma first_match_split (t : res_id) (es : list entry) :
  Exists (fun e => entry_id e = t) es ->
  exists pre hit rest,
    es = pre ++ hit :: rest
    /\ Forall (fun e => entry_id e <> t) pre
    /\ entry_id hit = t.
Proof.
  induction es as [ | e es IH]; intros Hex.
  - inversion Hex.
  - destruct (decide (entry_id e = t)) as [Heq | Hne].
    + exists [], e, es. repeat split; [constructor | exact Heq].
    + assert (Hex' : Exists (fun e => entry_id e = t) es)
        by (inversion Hex; [contradiction | assumption]).
      destruct (IH Hex') as (pre & hit & rest & -> & Hall & Hhit).
      exists (e :: pre), hit, rest. repeat split; [ | exact Hhit].
      now constructor.
Qed.


(** ** What a run of [extract_ligand] is *)

Section Runs.
Context `{BioPDB}.
Variable input_pdb : string.
Variable ligand_id : res_id.
Variable output_pdb : string.

Lemma run_parse_error (w : World) (e : exn) :
  get_structure input_pdb (fs w) = inl e ->
  extract_ligand input_pdb ligand_id output_pdb w
  = (add_events [EvParse input_pdb] w, inl e).
Proof.
  intros Hp. unfold extract_ligand, bind at 1, parser_get_structure.
  now rewrite Hp.
Qed.

Lemma run_scan_structure (w : World) (s : Structure) :
  get_structure input_pdb (fs w) = inr s ->
  extract_ligand input_pdb ligand_id output_pdb w
  = match scan {| io_structure := Some s |} ligand_id output_pdb (entries s)
            (add_events [EvParse input_pdb; EvSetStructure s] w) with
    | (w', inr _) => (w', inr tt)
    | (w', inl e) => (w', inl e)
    end.
Proof.
  intros Hp. unfold extract_ligand, bind at 1, parser_get_structure.
  rewrite Hp. unfold bind at 1, set_structure, bind at 1, emit, ret at 1.
  unfold bind. rewrite for_models_scan. unfold add_events, log. cbn.
  rewrite <- app_assoc. reflexivity.
Qed.

Lemma run_no_match (w : World) (s : Structure) :
  get_structure input_pdb (fs w) = inr s ->
  ~ has_match ligand_id s ->
  extract_ligand input_pdb ligand_id output_pdb w
  = (add_events (scan_events input_pdb s (entries s)) w, inr tt).
Proof.
  intros Hp Hn. rewrite (run_scan_structure w s Hp).
  rewrite scan_no_match by now apply no_match_Forall.
  unfold add_events, scan_events. cbn. now rewrite <- app_assoc.
Qed.

Lemma run_save_raises (w : World) (s : Structure) (pre rest : list entry)
      (hit : entry) (fs' : gmap string node) (e : exn) :
  get_structure input_pdb (fs w) = inr s ->
  entries s = pre ++ hit :: rest ->
  Forall (fun x => entry_id x <> ligand_id) pre ->
  entry_id hit = ligand_id ->
  save s output_pdb (PyTuple ligand_id) (fs w) = (fs', Some e) ->
  extract_ligand input_pdb ligand_id output_pdb w
  = ({| fs := fs'; stdout := stdout w;
        trace := trace w ++ scan_events input_pdb s (pre ++ [hit])
                   ++ [EvSave s output_pdb (PyTuple ligand_id)] |},
     inl e).
Proof.
  intros Hp Hs Hall Hhit Hsave. rewrite (run_scan_structure w s Hp), Hs.
  rewrite scan_first_match by assumption.
  unfold on_match, bind, io_save, add_events, scan_events. cbn.
  rewrite Hsave. cbn. repeat rewrite <- app_assoc. reflexivity.
Qed.

Lemma run_saved (w : World) (s : Structure) (pre rest : list entry)
      (hit : entry) (fs' : gmap string node) :
  get_structure input_pdb (fs w) = inr s ->
  entries s = pre ++ hit :: rest ->
  Forall (fun x => entry_id x <> ligand_id) pre ->
  entry_id hit = ligand_id ->
  save s output_pdb (PyTuple ligand_id) (fs w) = (fs', None) ->
  extract_ligand input_pdb ligand_id output_pdb w
  = ({| fs := fs';
        stdout := stdout w ++ [confirmation ligand_id output_pdb];
        trace := trace w ++ scan_events input_pdb s (pre ++ [hit])
                   ++ [EvSave s output_pdb (PyTuple ligand_id);
                       EvPrint (confirmation ligand_id output_pdb)] |},
     inr tt).
Proof.
  intros Hp Hs Hall Hhit Hsave. rewrite (run_scan_structure w s Hp), Hs.
  rewrite scan_first_match by assumption.
  unfold on_match, bind, io_save, print, add_events, scan_events. cbn.
  rewrite Hsave. cbn. repeat rewrite <- app_assoc. reflexivity.
Qed.
End Runs.

(** Every run is one of the four. *)
Lemma extract_ligand_run_of `{BioPDB} (input_pdb : string) (ligand_id : res_id)
      (output_pdb : string) (w : World) :
  run_of input_pdb ligand_id output_pdb w
    (extract_ligand input_pdb ligand_id output_pdb w).
Proof.
  destruct (get_structure input_pdb (fs w)) as [e | s] eqn:Hp.
  - rewrite (run_parse_error _ _ _ w e Hp). now constructor.
  - destruct (has_match_dec ligand_id s) as [Hm | Hn].
    + apply has_match_Exists, first_match_split in Hm
        as (pre & hit & rest & Hs & Hall & Hhit).
      destruct (save s output_pdb (PyTuple ligand_id) (fs w))
        as [fs' [e | ]] eqn:Hsave.
      * rewrite (run_save_raises _ _ _ w s pre rest hit fs' e); try assumption.
        now apply RunSaveRaises with (rest := rest).
      * rewrite (run_saved _ _ _ w s pre rest hit fs'); try assumption.
        now apply RunSaved with (rest := rest).
    + rewrite (run_no_match _ _ _ w s Hp Hn). now constructor.
Qed.

(** ** Reading the events a run added *)

Lemma new_events_app (w : World) (fs' : gmap string node) (out : list string)
      (evs : list event) :
  new_events w {| fs := fs'; stdout := out; trace := trace w ++ evs |} = evs.
Proof. unfold new_events. cbn. apply drop_app_length. Qed.

Lemma new_events_add (w : World) (evs : list event) :
  new_events w (add_events evs w) = evs.
Proof. apply new_events_app. Qed.



Lemma examined_examine (es : list entry) : examined (map examine es) = es.
Proof.
  induction es as [ | [[m c] r] es IH]; [reflexivity | ].
  cbn. unfold examined in IH. now rewrite IH.
Qed.

Lemma examined_app (evs evs' : list event) :
  examined (evs ++ evs') = examined evs ++ examined evs'.
Proof. unfold examined. apply flat_map_app. Qed.

Lemma examined_scan_events (input_pdb : string) (s : Structure)
      (seen : list entry) :
  examined (scan_events input_pdb s seen) = seen.
Proof. unfold scan_events. cbn. apply examined_examine. Qed.

Lemma saves_examine (es : list entry) :
  List.filter is_save (map examine es) = [].
Proof. induction es as [ | [[m c] r] es IH]; [reflexivity | exact IH]. Qed.

Lemma prints_examine (es : list entry) :
  List.filter is_print (map examine es) = [].
Proof. induction es as [ | [[m c] r] es IH]; [reflexivity | exact IH]. Qed.

Lemma saves_scan_events (input_pdb : string) (s : Structure)
      (seen : list entry) :
  List.filter is_save (scan_events input_pdb s seen) = [].
Proof. unfold scan_events. cbn. apply saves_examine. Qed.

Lemma prints_scan_events (input_pdb : string) (s : Structure)
      (seen : list entry) :
  List.filter is_print (scan_events input_pdb s seen) = [].
Proof. unfold scan_events. cbn. apply prints_examine. Qed.


(** ** The reference writer handed a tuple *)

Lemma reference_save_tuple (s : Structure) (file : string) (t : res_id)
      (files : gmap string node) :
  s <> [] -> files !! file <> Some Directory ->
  Reference.PDBIO_save s file (PyTuple t) files
  = (<[file := File []]> files, Some (AttributeError "tuple" "accept_model")).
Proof.
  intros Hs Hd. unfold Reference.PDBIO_save.
  destruct s as [ | m ms]; [contradiction | ].
  destruct (files !! file) as [[recs | ] | ]; try reflexivity. contradiction.
Qed.

Lemma reference_save_directory (s : Structure) (file : string) (select : pyobj)
      (files : gmap string node) :
  files !! file = Some Directory ->
  Reference.PDBIO_save s file select files = (files, Some (IsADirectoryError file)).
Proof. intros Hd. unfold Reference.PDBIO_save. now rewrite Hd. Qed.

Lemma has_match_nonempty (t : res_id) (s : Structure) :
  has_match t s -> s <> [].
Proof. intros (m & c & r & Hm & _) ->. exact Hm. Qed.

Lemma split_has_match (t : res_id) (s : Structure) (pre rest : list entry)
      (hit : entry) :
  entries s = pre ++ hit :: rest -> entry_id hit = t -> has_match t s.
Proof.
  intros Hs Hhit. apply has_match_Exists, List.Exists_exists. exists hit.
  split; [ | exact Hhit]. rewrite Hs. apply in_or_app. right. now left.
Qed.

(** ** No match: nothing happens *)

(** C3.  When the parsed structure holds no residue whose identifier
    equals [ligand_id], the call returns normally, the file system is as
    it was, nothing is printed, and the writer is never called. *)
Theorem no_match_is_a_silent_no_op {lib : BioPDB} (input_pdb : string)
        (ligand_id : res_id) (output_pdb : string) (w : World) (s : Structure) :
  get_structure input_pdb (fs w) = inr s ->
  ~ has_match ligand_id s ->
  let '(w', res) := extract_ligand input_pdb ligand_id output_pdb w in
  res = inr tt
  /\ fs w' = fs w
  /\ stdout w' = stdout w
  /\ List.filter is_save (new_events w w') = []
  /\ List.filter is_print (new_events w w') = [].
Proof.
  intros Hp Hn. rewrite (run_no_match _ _ _ w s Hp Hn).
  rewrite new_events_add, saves_scan_events, prints_scan_events.
  repeat split.
Qed.

Lemma no_match_is_a_silent_no_op_witness :
  @get_structure Reference.lib Sample.input_pdb (fs Sample.protein_only)
  = inr Sample.protein_structure
  /\ ~ has_match Sample.ligand_id Sample.protein_structure
  /\ let '(w', res) :=
       @extract_ligand Reference.lib Sample.input_pdb Sample.ligand_id
                       Sample.output_pdb Sample.protein_only in
     res = inr tt
     /\ fs w' = fs Sample.protein_only
     /\ stdout w' = stdout Sample.protein_only
     /\ List.filter is_save (new_events Sample.protein_only w') = []
     /\ List.filter is_print (new_events Sample.protein_only w') = [].
Proof.
  assert (Hn : ~ has_match Sample.ligand_id Sample.protein_structure).
  { intros Hm. apply has_matchb_spec in Hm. vm_compute in Hm. discriminate. }
  split; [vm_compute; reflexivity | ]. split; [exact Hn | ].
  apply (@no_match_is_a_silent_no_op Reference.lib Sample.input_pdb
           Sample.ligand_id Sample.output_pdb Sample.protein_only
           Sample.protein_structure); [vm_compute; reflexivity | exact Hn].
Defined.

(** ** First match wins *)

(** C4.  The residues are compared in iteration order.  Either none
    matches, every residue is compared and the writer is not called; or
    the comparisons stop at the first match, the writer is called once,
    for that match, and no residue after it is compared. *)
Theorem scan_stops_at_first_match {lib : BioPDB} (input_pdb : string)
        (ligand_id : res_id) (output_pdb : string) (w : World) (s : Structure) :
  get_structure input_pdb (fs w) = inr s ->
  let evs := new_events w (fst (extract_ligand input_pdb ligand_id output_pdb w)) in
  (~ has_match ligand_id s
   /\ examined evs = entries s
   /\ List.filter is_save evs = [])
  \/
  (exists pre hit rest,
      entries s = pre ++ hit :: rest
      /\ Forall (fun e => entry_id e <> ligand_id) pre
      /\ entry_id hit = ligand_id
      /\ examined evs = pre ++ [hit]
      /\ List.filter is_save evs = [EvSave s output_pdb (PyTuple ligand_id)]
      /\ exists after,
          evs = scan_events input_pdb s (pre ++ [hit])
                  ++ EvSave s output_pdb (PyTuple ligand_id) :: after
          /\ examined after = []).
Proof.
  intros Hp evs. subst evs.
  destruct (extract_ligand_run_of input_pdb ligand_id output_pdb w)
    as [e He | s0 Hp0 Hn | s0 pre rest hit fs' e Hp0 Hs Hall Hhit Hsave
        | s0 pre rest hit fs' Hp0 Hs Hall Hhit Hsave]; cbn [fst].
  - congruence.
  - assert (s0 = s) by congruence. subst s0. left.
    rewrite new_events_add, examined_scan_events, saves_scan_events. auto.
  - assert (s0 = s) by congruence. subst s0. right. exists pre, hit, rest.
    rewrite new_events_app, examined_app, examined_scan_events.
    rewrite List.filter_app, saves_scan_events. cbn.
    rewrite app_nil_r. repeat split; try assumption. now exists [].
  - assert (s0 = s) by congruence. subst s0. right. exists pre, hit, rest.
    rewrite new_events_app, examined_app, examined_scan_events.
    rewrite List.filter_app, saves_scan_events. cbn.
    rewrite app_nil_r. repeat split; try assumption.
    now exists [EvPrint (confirmation ligand_id output_pdb)].
Qed.

Lemma scan_stops_at_first_match_witness :
  @get_structure Reference.lib Sample.input_pdb (fs Sample.ensemble)
  = inr Sample.ensemble_structure
  /\ let evs :=
       new_events Sample.ensemble
         (fst (@extract_ligand Reference.lib Sample.input_pdb Sample.ligand_id
                               Sample.output_pdb Sample.ensemble)) in
     (~ has_match Sample.ligand_id Sample.ensemble_structure
      /\ examined evs = entries Sample.ensemble_structure
      /\ List.filter is_save evs = [])
     \/
     (exists pre hit rest,
         entries Sample.ensemble_structure = pre ++ hit :: rest
         /\ Forall (fun e => entry_id e <> Sample.ligand_id) pre
         /\ entry_id hit = Sample.ligand_id
         /\ examined evs = pre ++ [hit]
         /\ List.filter is_save evs
            = [EvSave Sample.ensemble_structure Sample.output_pdb
                      (PyTuple Sample.ligand_id)]
         /\ exists after,
             evs = scan_events Sample.input_pdb Sample.ensemble_structure
                     (pre ++ [hit])
                     ++ EvSave Sample.ensemble_structure Sample.output_pdb
                          (PyTuple Sample.ligand_id) :: after
             /\ examined after = []).
Proof.
  split; [vm_compute; reflexivity | ].
  apply (@scan_stops_at_first_match Reference.lib Sample.input_pdb
           Sample.ligand_id Sample.output_pdb Sample.ensemble
           Sample.ensemble_structure).
  vm_compute. reflexivity.
Defined.

(** In the ensemble the identifier occurs twice, once per model; only
    the residues of the first model up to the match are compared. *)
Example ensemble_scan :
  length (matching Sample.ligand_id Sample.ensemble_structure) = 2%nat
  /\ examined (trace (fst (@extract_ligand Reference.lib Sample.input_pdb
                             Sample.ligand_id Sample.output_pdb Sample.ensemble)))
     = [ (0, "A", {| r_id := (" ", 10, " "); resname := "ALA";
                     r_atoms := [Sample.N_; Sample.CA] |});
         (0, "A", {| r_id := (" ", 11, " "); resname := "GLY";
                     r_atoms := [Sample.N_] |});
         (0, "A", Sample.ligand) ].
Proof. split; vm_compute; reflexivity. Qed.

(** ** The parsed structure is never changed *)


Section SharedFacts.
Context (L : Shared.BioPDBObj).
Hypothesis RO : Shared.read_only L.
Variable ligand_id : res_id.
Variable output_pdb : string.
Variable s : Structure.




End SharedFacts.




(** The hypothesis is needed: a writer that strips the object while
    saving is seen to have changed it. *)
Example a_stripping_writer_changes_the_object :
  ~ Shared.read_only (Shared.stripping Reference.lib)
  /\ Shared.object
       (fst (@Shared.extract_ligand (Shared.stripping Reference.lib)
               Sample.input_pdb Sample.ligand_id Sample.output_pdb
               (Shared.start Sample.single)))
     = Some []
  /\ Sample.single_structure <> [].
Proof.
  split; [ | split].
  - intros [_ Hs].
    specialize (Hs Sample.single_structure Sample.output_pdb
                   (PyTuple Sample.ligand_id) (fs Sample.single)).
    vm_compute in Hs. discriminate.
  - vm_compute. reflexivity.
  - vm_compute. discriminate.
Qed.

(** ** Errors *)

(** C6.  The call raises exactly when the parser raises or, a match
    having been found, the writer raises; and it raises that very
    exception. *)
Theorem errors_are_the_library_s_own {lib : BioPDB} (input_pdb : string)
        (ligand_id : res_id) (output_pdb : string) (w : World) (e : exn) :
  snd (extract_ligand input_pdb ligand_id output_pdb w) = inl e
  <->
  (get_structure input_pdb (fs w) = inl e
   \/ exists s,
       get_structure input_pdb (fs w) = inr s
       /\ has_match ligand_id s
       /\ snd (save s output_pdb (PyTuple ligand_id) (fs w)) = Some e).
Proof.
  destruct (extract_ligand_run_of input_pdb ligand_id output_pdb w)
    as [e0 He | s0 Hp0 Hn | s0 pre rest hit fs' e0 Hp0 Hs Hall Hhit Hsave
        | s0 pre rest hit fs' Hp0 Hs Hall Hhit Hsave]; cbn [snd].
  - split.
    + intros [= <-]. now left.
    + intros [Hp | (s & Hp & _)]; congruence.
  - split; [discriminate | ].
    intros [Hp | (s & Hp & Hm & _)]; [congruence | ].
    assert (s0 = s) by congruence. subst s0. contradiction.
  - split.
    + intros [= <-]. right. exists s0. split; [exact Hp0 | ]. split.
      * now apply split_has_match with (1 := Hs).
      * now rewrite Hsave.
    + intros [Hp | (s & Hp & _ & Hsv)]; [congruence | ].
      assert (s0 = s) by congruence. subst s0. rewrite Hsave in Hsv.
      cbn in Hsv. congruence.
  - split; [discriminate | ].
    intros [Hp | (s & Hp & _ & Hsv)]; [congruence | ].
    assert (s0 = s) by congruence. subst s0. rewrite Hsave in Hsv.
    discriminate.
Qed.

Lemma errors_are_the_library_s_own_witness :
  snd (@extract_ligand Reference.lib Sample.input_pdb Sample.ligand_id
                       Sample.output_pdb Sample.empty_disk)
  = inl (FileNotFoundError Sample.input_pdb).
Proof.
  apply (proj2 (@errors_are_the_library_s_own Reference.lib Sample.input_pdb
                  Sample.ligand_id Sample.output_pdb Sample.empty_disk
                  (FileNotFoundError Sample.input_pdb))).
  left. vm_compute. reflexivity.
Defined.

(** ** The confirmation line *)


Example sample_confirmation :
  confirmation Sample.ligand_id Sample.output_pdb
  = "Ligand '(' ', 1, ' ')' extracted and saved to 'extracted_ligand.pdb'".
Proof. vm_compute. reflexivity. Qed.

(** C7.  On the sample file a residue matches, yet no confirmation is
    printed: the writer, handed the tuple, raises before line 15. *)
Theorem no_confirmation_on_the_sample :
  @get_structure Reference.lib Sample.input_pdb (fs Sample.single)
  = inr Sample.single_structure
  /\ has_match Sample.ligand_id Sample.single_structure
  /\ let '(w', res) :=
       @extract_ligand Reference.lib Sample.input_pdb Sample.ligand_id
                       Sample.output_pdb Sample.single in
     res = inl (AttributeError "tuple" "accept_model")
     /\ new_lines Sample.single w' = []
     /\ stdout w' = []
     /\ List.filter is_print (trace w') = [].
Proof.
  split; [vm_compute; reflexivity | ].
  split; [apply has_matchb_spec; vm_compute; reflexivity | ].
  vm_compute. repeat split.
Qed.

(** C10.  If the writer raises, its exception is the call's and no
    confirmation is printed; and a confirmation in the trace comes right
    after a [save] that returned. *)
Theorem confirmation_only_after_save_returns {lib : BioPDB}
        (input_pdb : string) (ligand_id : res_id) (output_pdb : string)
        (w : World) :
  let '(w', res) := extract_ligand input_pdb ligand_id output_pdb w in
  (forall s e, get_structure input_pdb (fs w) = inr s ->
               has_match ligand_id s ->
               snd (save s output_pdb (PyTuple ligand_id) (fs w)) = Some e ->
               res = inl e
               /\ stdout w' = stdout w
               /\ List.filter is_print (new_events w w') = [])
  /\ (forall line, In (EvPrint line) (new_events w w') ->
        exists s before,
          get_structure input_pdb (fs w) = inr s
          /\ snd (save s output_pdb (PyTuple ligand_id) (fs w)) = None
          /\ new_events w w'
             = before ++ [EvSave s output_pdb (PyTuple ligand_id); EvPrint line]).
Proof.
  assert (Hnp : forall s seen line,
             ~ In (EvPrint line) (scan_events input_pdb s seen)).
  { intros s seen line [Hx | [Hx | Hx]]; try discriminate.
    apply in_map_iff in Hx as ([[m c] r] & Hx & _). discriminate. }
  destruct (extract_ligand_run_of input_pdb ligand_id output_pdb w)
    as [e0 He | s0 Hp0 Hn | s0 pre rest hit fs' e0 Hp0 Hs Hall Hhit Hsave
        | s0 pre rest hit fs' Hp0 Hs Hall Hhit Hsave].
  - rewrite new_events_add. split.
    + intros s e Hp. congruence.
    + intros line [Hx | []]. discriminate.
  - rewrite new_events_add. split.
    + intros s e Hp Hm. assert (s0 = s) by congruence. subst s0. contradiction.
    + intros line Hx. now apply Hnp in Hx.
  - rewrite new_events_app. split.
    + intros s e Hp _ Hsv. assert (s0 = s) by congruence. subst s0.
      rewrite Hsave in Hsv. cbn in Hsv. injection Hsv as <-.
      rewrite List.filter_app, prints_scan_events. repeat split.
    + intros line Hx. apply in_app_or in Hx as [Hx | [Hx | []]].
      * now apply Hnp in Hx.
      * discriminate.
  - rewrite new_events_app. split.
    + intros s e Hp _ Hsv. assert (s0 = s) by congruence. subst s0.
      rewrite Hsave in Hsv. discriminate.
    + intros line Hx. apply in_app_or in Hx as [Hx | [Hx | [Hx | []]]].
      * now apply Hnp in Hx.
      * discriminate.
      * injection Hx as <-. exists s0, (scan_events input_pdb s0 (pre ++ [hit])).
        split; [exact Hp0 | ]. split; [now rewrite Hsave | reflexivity].
Qed.

Lemma confirmation_only_after_save_returns_witness :
  let '(w', res) :=
    @extract_ligand Reference.lib Sample.input_pdb Sample.ligand_id
                    Sample.output_pdb Sample.single in
  res = inl (AttributeError "tuple" "accept_model")
  /\ stdout w' = stdout Sample.single
  /\ List.filter is_print (new_events Sample.single w') = [].
Proof.
  pose proof (@confirmation_only_after_save_returns Reference.lib
                Sample.input_pdb Sample.ligand_id Sample.output_pdb
                Sample.single) as Hc.
  destruct (@extract_ligand Reference.lib Sample.input_pdb Sample.ligand_id
                            Sample.output_pdb Sample.single) as [w' res].
  destruct Hc as [Hc _].
  apply (Hc Sample.single_structure).
  - vm_compute. reflexivity.
  - apply has_matchb_spec. vm_compute. reflexivity.
  - vm_compute. reflexivity.
Defined.

(** ** Determinism *)




(** ** What the writer is handed *)

(** With the reference writer and any parser: once a residue matches, the
    writer is called with the tuple, opens the output file, fails on the
    first method lookup, and the call ends there. *)
Lemma reference_run_on_match
      (parse : string -> gmap string node -> exn + Structure)
      (input_pdb : string) (ligand_id : res_id) (output_pdb : string)
      (w : World) (s : Structure) :
  parse input_pdb (fs w) = inr s ->
  has_match ligand_id s ->
  fs w !! output_pdb <> Some Directory ->
  let '(w', res) :=
    @extract_ligand (Reference.with_parser parse) input_pdb ligand_id
                    output_pdb w in
  res = inl (AttributeError "tuple" "accept_model")
  /\ fs w' = <[output_pdb := File []]> (fs w)
  /\ stdout w' = stdout w.
Proof.
  intros Hp Hm Hd.
  pose proof (reference_save_tuple s output_pdb ligand_id (fs w)
                (has_match_nonempty _ _ Hm) Hd) as Hsv.
  destruct (@extract_ligand_run_of (Reference.with_parser parse)
              input_pdb ligand_id output_pdb w)
    as [e0 He | s0 Hp0 Hn | s0 pre rest hit fs' e0 Hp0 Hs Hall Hhit Hsave
        | s0 pre rest hit fs' Hp0 Hs Hall Hhit Hsave];
    cbn [get_structure save Reference.with_parser] in *.
  - congruence.
  - assert (s0 = s) by congruence. subst s0. contradiction.
  - assert (s0 = s) by congruence. subst s0.
    rewrite Hsv in Hsave. injection Hsave as <- <-. repeat split.
  - assert (s0 = s) by congruence. subst s0.
    rewrite Hsv in Hsave. discriminate.
Qed.

(** C1.  On the sample file the writer is called once, with the
    identifier tuple itself as [select]; a tuple has none of the methods
    the writer consults, so asking it whether it accepts the residue
    raises, and so does the call. *)
Theorem save_is_handed_the_identifier_tuple :
  let '(w', res) :=
    @extract_ligand Reference.lib Sample.input_pdb Sample.ligand_id
                    Sample.output_pdb Sample.single in
  List.filter is_save (trace w')
  = [EvSave Sample.single_structure Sample.output_pdb
            (PyTuple Sample.ligand_id)]
  /\ Reference.call_accept_residue (PyTuple Sample.ligand_id) Sample.ligand []
     = ([], inl (AttributeError "tuple" "accept_residue"))
  /\ res = inl (AttributeError "tuple" "accept_model").
Proof. vm_compute. repeat split. Qed.

(** C2.  On the sample file exactly one residue carries the identifier
    and it has two atoms; the call raises and the output file holds no
    record at all. *)
Theorem single_match_leaves_an_empty_file :
  matching Sample.ligand_id Sample.single_structure = [(0, "A", Sample.ligand)]
  /\ r_atoms Sample.ligand = [Sample.C1; Sample.O1]
  /\ let '(w', res) :=
       @extract_ligand Reference.lib Sample.input_pdb Sample.ligand_id
                       Sample.output_pdb Sample.single in
     res = inl (AttributeError "tuple" "accept_model")
     /\ fs w' !! Sample.output_pdb = Some (File [])
     /\ stdout w' = [].
Proof. vm_compute. repeat split. Qed.

(** C9.  On the ensemble, after the call the output file is empty, and
    parsing it again yields no structure, hence no residue. *)
Theorem reparsing_the_output_finds_no_residue :
  has_matchb Sample.ligand_id Sample.ensemble_structure = true
  /\ let w' :=
       fst (@extract_ligand Reference.lib Sample.input_pdb Sample.ligand_id
                            Sample.output_pdb Sample.ensemble) in
     fs w' !! Sample.output_pdb = Some (File [])
     /\ @get_structure Reference.lib Sample.output_pdb (fs w')
        = inl (ValueError "Empty file.").
Proof. vm_compute. repeat split. Qed.

(** Handed a [Select] object for the identifier, the same writer writes
    the ligand's atoms and nothing else. *)
Example select_object_writes_the_ligand :
  Reference.PDBIO_save Sample.single_structure Sample.output_pdb
    (PySelect (select_by_id Sample.ligand_id)) (fs Sample.single)
  = (<[Sample.output_pdb :=
         File [ RecAtom "A" "LIG" Sample.ligand_id Sample.C1;
                RecAtom "A" "LIG" Sample.ligand_id Sample.O1;
                RecTer; RecEnd ]]> (fs Sample.single),
     None).
Proof. vm_compute. reflexivity. Qed.

(** In the ensemble such an object selects the residue of both models. *)
Example select_object_on_the_ensemble :
  (fst (Reference.PDBIO_save Sample.ensemble_structure Sample.output_pdb
          (PySelect (select_by_id Sample.ligand_id))
          (fs Sample.ensemble))) !! Sample.output_pdb
  = Some (File [ RecModel 1;
                 RecAtom "A" "LIG" Sample.ligand_id Sample.C1;
                 RecAtom "A" "LIG" Sample.ligand_id Sample.O1;
                 RecTer; RecEndmdl;
                 RecModel 2;
                 RecAtom "A" "LIG" Sample.ligand_id Sample.C1;
                 RecAtom "A" "LIG" Sample.ligand_id Sample.O1;
                 RecTer; RecEndmdl;
                 RecEnd ]).
Proof. vm_compute. reflexivity. Qed.

(** * Further properties *)

(** ** What a run can change *)

(** A run keeps the lines already printed and adds at most one; keeps the
    events already logged; and leaves the file system as it was unless a
    residue matched, in which case the file system is the one the single
    [save] call left, called on the file system the parser read. *)
Theorem run_changes_only_through_save {lib : BioPDB} (input_pdb : string)
        (ligand_id : res_id) (output_pdb : string) (w : World) :
  let '(w', res) := extract_ligand input_pdb ligand_id output_pdb w in
  (exists lines, stdout w' = stdout w ++ lines /\ (length lines <= 1)%nat)
  /\ trace w' = trace w ++ new_events w w'
  /\ ((List.filter is_save (new_events w w') = [] /\ fs w' = fs w)
      \/ exists s,
          get_structure input_pdb (fs w) = inr s
          /\ has_match ligand_id s
          /\ List.filter is_save (new_events w w')
             = [EvSave s output_pdb (PyTuple ligand_id)]
          /\ fs w' = fst (save s output_pdb (PyTuple ligand_id) (fs w))).
Proof.
  destruct (extract_ligand_run_of input_pdb ligand_id output_pdb w)
    as [e0 He | s0 Hp0 Hn | s0 pre rest hit fs' e0 Hp0 Hs Hall Hhit Hsave
        | s0 pre rest hit fs' Hp0 Hs Hall Hhit Hsave].
  - rewrite new_events_add. split; [ | split].
    + exists []. cbn. rewrite app_nil_r. split; [reflexivity | lia].
    + reflexivity.
    + left. split; reflexivity.
  - rewrite new_events_add, saves_scan_events. split; [ | split].
    + exists []. cbn. rewrite app_nil_r. split; [reflexivity | lia].
    + reflexivity.
    + left. split; reflexivity.
  - rewrite new_events_app. split; [ | split].
    + exists []. cbn. rewrite app_nil_r. split; [reflexivity | lia].
    + reflexivity.
    + right. exists s0. split; [exact Hp0 | ]. split.
      * now apply split_has_match with (1 := Hs).
      * rewrite List.filter_app, saves_scan_events, Hsave. split; reflexivity.
  - rewrite new_events_app. split; [ | split].
    + exists [confirmation ligand_id output_pdb]. cbn. split; [reflexivity | lia].
    + reflexivity.
    + right. exists s0. split; [exact Hp0 | ]. split.
      * now apply split_has_match with (1 := Hs).
      * rewrite List.filter_app, saves_scan_events, Hsave. split; reflexivity.
Qed.

(** ** Splitting the outer loop *)

(** Scanning the models [ms1 ++ ms2] is scanning [ms1] and then, unless
    the scan of [ms1] returned or raised, scanning [ms2] from the world
    the first scan left. *)
Theorem for_models_app {lib : BioPDB} (io : PDBIO) (ligand_id : res_id)
        (output_pdb : string) (ms1 ms2 : list Model) (w : World) :
  for_models io ligand_id output_pdb (ms1 ++ ms2) w
  = and_then (for_models io ligand_id output_pdb ms1)
             (for_models io ligand_id output_pdb ms2) w.
Proof.
  rewrite for_models_scan. unfold entries. rewrite flat_map_app, scan_app.
  apply and_then_ext; intros v; symmetry; apply for_models_scan.
Qed.

(** ** The reference writer, for every input *)

Lemma reference_save_tuple_cases (s : Structure) (file : string) (t : res_id)
      (files : gmap string node) :
  s <> [] ->
  (files !! file = Some Directory
   /\ Reference.PDBIO_save s file (PyTuple t) files
      = (files, Some (IsADirectoryError file)))
  \/ (files !! file <> Some Directory
      /\ Reference.PDBIO_save s file (PyTuple t) files
         = (<[file := File []]> files,
            Some (AttributeError "tuple" "accept_model"))).
Proof.
  intros Hs. destruct (files !! file) as [[recs | ] | ] eqn:Hf.
  - right. assert (Hd : files !! file <> Some Directory) by congruence.
    split; [congruence | now apply reference_save_tuple].
  - left. split; [reflexivity | now apply reference_save_directory].
  - right. assert (Hd : files !! file <> Some Directory) by congruence.
    split; [congruence | now apply reference_save_tuple].
Qed.

(** Whatever the parser, the file system and the arguments: with the
    reference writer no run prints the confirmation. *)
Theorem reference_never_confirms
        (parse : string -> gmap string node -> exn + Structure)
        (input_pdb : string) (ligand_id : res_id) (output_pdb : string)
        (w : World) :
  let w' := fst (@extract_ligand (Reference.with_parser parse) input_pdb
                                 ligand_id output_pdb w) in
  stdout w' = stdout w /\ List.filter is_print (new_events w w') = [].
Proof.
  destruct (@extract_ligand_run_of (Reference.with_parser parse)
              input_pdb ligand_id output_pdb w)
    as [e0 He | s0 Hp0 Hn | s0 pre rest hit fs' e0 Hp0 Hs Hall Hhit Hsave
        | s0 pre rest hit fs' Hp0 Hs Hall Hhit Hsave];
    cbn [fst get_structure save Reference.with_parser] in *.
  - rewrite new_events_add. split; reflexivity.
  - rewrite new_events_add, prints_scan_events. split; reflexivity.
  - rewrite new_events_app, List.filter_app, prints_scan_events.
    split; reflexivity.
  - exfalso.
    assert (Hne : s0 <> [])
      by (eapply has_match_nonempty, split_has_match; eassumption).
    destruct (reference_save_tuple_cases s0 output_pdb ligand_id (fs w) Hne)
      as [[_ Hsv] | [_ Hsv]]; rewrite Hsv in Hsave; discriminate.
Qed.

(** With the reference writer a run returns normally exactly when the
    parser returned a structure in which no residue matches. *)
Theorem reference_returns_iff_no_match
        (parse : string -> gmap string node -> exn + Structure)
        (input_pdb : string) (ligand_id : res_id) (output_pdb : string)
        (w : World) :
  snd (@extract_ligand (Reference.with_parser parse) input_pdb ligand_id
                       output_pdb w) = inr tt
  <-> exists s, parse input_pdb (fs w) = inr s /\ ~ has_match ligand_id s.
Proof.
  destruct (@extract_ligand_run_of (Reference.with_parser parse)
              input_pdb ligand_id output_pdb w)
    as [e0 He | s0 Hp0 Hn | s0 pre rest hit fs' e0 Hp0 Hs Hall Hhit Hsave
        | s0 pre rest hit fs' Hp0 Hs Hall Hhit Hsave];
    cbn [snd get_structure save Reference.with_parser] in *.
  - split; [discriminate | ]. intros (s & Hp & _). congruence.
  - split; [ | reflexivity]. intros _. now exists s0.
  - split; [discriminate | ]. intros (s & Hp & Hn).
    assert (s0 = s) by congruence. subst s0.
    exfalso. apply Hn. now apply split_has_match with (1 := Hs).
  - exfalso.
    assert (Hne : s0 <> [])
      by (eapply has_match_nonempty, split_has_match; eassumption).
    destruct (reference_save_tuple_cases s0 output_pdb ligand_id (fs w) Hne)
      as [[_ Hsv] | [_ Hsv]]; rewrite Hsv in Hsave; discriminate.
Qed.

(** Input and output at one path: when a residue matches, the run leaves
    the input file empty, and it cannot be parsed again. *)
Theorem same_path_empties_the_input (path : string) (ligand_id : res_id)
        (w : World) (s : Structure) :
  @get_structure Reference.lib path (fs w) = inr s ->
  has_match ligand_id s ->
  let w' := fst (@extract_ligand Reference.lib path ligand_id path w) in
  fs w' !! path = Some (File [])
  /\ @get_structure Reference.lib path (fs w') = inl (ValueError "Empty file.").
Proof.
  intros Hp Hm.
  assert (Hd : fs w !! path <> Some Directory).
  { cbn in Hp. unfold Reference.PDBParser_get_structure in Hp.
    intros Hd. rewrite Hd in Hp. discriminate. }
  pose proof (reference_run_on_match Reference.PDBParser_get_structure
                path ligand_id path w s Hp Hm Hd) as Hrun.
  change (Reference.with_parser Reference.PDBParser_get_structure)
    with Reference.lib in Hrun.
  destruct (@extract_ligand Reference.lib path ligand_id path w) as [w' res].
  destruct Hrun as (_ & Hfs & _). cbn [fst].
  cbn [get_structure Reference.lib]. unfold Reference.PDBParser_get_structure.
  rewrite Hfs, lookup_insert_eq. split; reflexivity.
Qed.

Lemma same_path_empties_the_input_witness :
  @get_structure Reference.lib Sample.input_pdb (fs Sample.single)
  = inr Sample.single_structure
  /\ has_match Sample.ligand_id Sample.single_structure
  /\ let w' := fst (@extract_ligand Reference.lib Sample.input_pdb
                                    Sample.ligand_id Sample.input_pdb
                                    Sample.single) in
     fs w' !! Sample.input_pdb = Some (File [])
     /\ @get_structure Reference.lib Sample.input_pdb (fs w')
        = inl (ValueError "Empty file.").
Proof.
  assert (Hm : has_match Sample.ligand_id Sample.single_structure)
    by (apply has_matchb_spec; vm_compute; reflexivity).
  split; [vm_compute; reflexivity | ]. split; [exact Hm | ].
  apply (same_path_empties_the_input Sample.input_pdb Sample.ligand_id
           Sample.single Sample.single_structure);
    [vm_compute; reflexivity | exact Hm].
Defined.

(** ** The confirmation line, read back *)

Lemma append_assoc (a b c : string) : (a +:+ b) +:+ c = a +:+ (b +:+ c).
Proof.
  induction a as [ | x a IH]; [reflexivity | ].
  change (String x ((a +:+ b) +:+ c) = String x (a +:+ (b +:+ c))).
  now rewrite IH.
Qed.

Lemma length_append (a b : string) :
  String.length (a +:+ b) = (String.length a + String.length b)%nat.
Proof.
  induction a as [ | x a IH]; [reflexivity | ].
  change (S (String.length (a +:+ b)) = S (String.length a + String.length b)).
  now rewrite IH.
Qed.

Lemma append_inv_tail (a b t : string) : a +:+ t = b +:+ t -> a = b.
Proof.
  revert b. induction a as [ | x a IH]; intros [ | y b] Heq.
  - reflexivity.
  - change (t = String y (b +:+ t)) in Heq.
    apply (f_equal String.length) in Heq.
    cbn [String.length] in Heq. rewrite length_append in Heq. lia.
  - change (String x (a +:+ t) = t) in Heq.
    apply (f_equal String.length) in Heq.
    cbn [String.length] in Heq. rewrite length_append in Heq. lia.
  - change (String x (a +:+ t) = String y (b +:+ t)) in Heq.
    injection Heq as -> Heq. f_equal. now apply IH.
Qed.

Lemma has_char_app (c : ascii) (a b : string) :
  has_char c (a +:+ b) = has_char c a || has_char c b.
Proof.
  induction a as [ | x a IH]; [reflexivity | ].
  change (Ascii.eqb c x || has_char c (a +:+ b)
          = Ascii.eqb c x || has_char c a || has_char c b).
  rewrite IH. now rewrite orb_assoc.
Qed.

(** One character written by [repr_char] is read back by [read_chars]. *)
Lemma read_chars_char (q c : ascii) (tail : string) :
  q = squote \/ q = dquote ->
  read_chars q (repr_char q c +:+ tail) = push c (read_chars q tail).
Proof.
  intros [-> | ->]; destruct c as [[] [] [] [] [] [] [] []]; reflexivity.
Qed.

Lemma read_chars_repr (q : ascii) (s rest : string) :
  q = squote \/ q = dquote ->
  read_chars q (repr_chars q s +:+ String q rest) = Some (s, rest).
Proof.
  intros Hq. induction s as [ | c s IH].
  - change (read_chars q (String q rest) = Some (EmptyString, rest)).
    cbn [read_chars]. now rewrite Ascii.eqb_refl.
  - cbn [repr_chars]. rewrite append_assoc, read_chars_char by exact Hq.
    now rewrite IH.
Qed.

(** A string written by [repr_str] is read back, whatever follows it. *)
Lemma read_repr_str (s rest : string) :
  read_repr (repr_str s +:+ rest) = Some (s, rest).
Proof.
  unfold repr_str.
  destruct (has_char squote s && negb (has_char dquote s)).
  - change (read_repr (String dquote ((repr_chars dquote s +:+ String dquote "")
                                       +:+ rest)) = Some (s, rest)).
    rewrite append_assoc. cbn [read_repr].
    change (Ascii.eqb dquote squote || Ascii.eqb dquote dquote) with true.
    cbv beta iota. apply read_chars_repr. now right.
  - change (read_repr (String squote ((repr_chars squote s +:+ String squote "")
                                       +:+ rest)) = Some (s, rest)).
    rewrite append_assoc. cbn [read_repr].
    change (Ascii.eqb squote squote || Ascii.eqb squote dquote) with true.
    cbv beta iota. apply read_chars_repr. now left.
Qed.

(** The decimal digits of a number hold no character but digits and the
    minus sign. *)
Lemma pretty_N_go_no_char (c : ascii) :
  (forall d, pretty_N_char d <> c) ->
  forall (x : N) (s : string),
    has_char c s = false -> has_char c (pretty_N_go x s) = false.
Proof.
  intros Hc x. induction (N.lt_wf_0 x) as [x _ IH]. intros s Hs.
  destruct (N.eq_dec x 0%N) as [-> | Hx].
  - now rewrite pretty_N_go_0.
  - rewrite pretty_N_go_step by lia. apply IH.
    + apply N.div_lt; lia.
    + cbn [has_char]. rewrite Hs, orb_false_r.
      apply Ascii.eqb_neq. intros ->. now apply (Hc (x `mod` 10)%N).
Qed.

Lemma pretty_Z_no_char (c : ascii) (n : Z) :
  (forall d, pretty_N_char d <> c) -> c <> "-"%char ->
  has_char c (pretty n) = false.
Proof.
  intros Hc Hm.
  assert (H0 : has_char c "0" = false).
  { cbn [has_char]. rewrite orb_false_r. apply Ascii.eqb_neq.
    intros ->. now apply (Hc 0%N). }
  assert (Hp : forall p : positive, has_char c (pretty p) = false).
  { intros p. unfold pretty, pretty_positive, pretty, pretty_N.
    destruct (decide (N.pos p = 0%N)); [exact H0 | ].
    now apply pretty_N_go_no_char. }
  destruct n as [ | p | p]; unfold pretty, pretty_Z.
  - exact H0.
  - apply Hp.
  - rewrite has_char_app, Hp, orb_false_r. cbn [has_char].
    rewrite orb_false_r. now apply Ascii.eqb_neq.
Qed.

Lemma split_comma_app (p r : string) :
  has_char "," p = false ->
  split_comma (p +:+ String "," r) = Some (p, r).
Proof.
  induction p as [ | c p IH]; intros Hp.
  - reflexivity.
  - change (split_comma (String c (p +:+ String "," r)) = Some (String c p, r)).
    cbn [has_char] in Hp. apply orb_false_iff in Hp as [Hc Hp].
    cbn [split_comma]. rewrite Ascii.eqb_sym, Hc, (IH Hp). reflexivity.
Qed.

Lemma str_id_app (h i : string) (n : Z) (rest : string) :
  str_id (h, n, i) +:+ rest
  = String "(" (repr_str h +:+ String "," (String " "
      (pretty n +:+ String "," (String " " (repr_str i +:+ String ")" rest))))).
Proof. unfold str_id, repr_int. rewrite !append_assoc. reflexivity. Qed.

(** An identifier written by [str_id] is read back, whatever follows. *)
Lemma read_id_str (h i : string) (n : Z) (rest : string) :
  read_id (str_id (h, n, i) +:+ rest) = Some (h, pretty n, i, rest).
Proof.
  rewrite str_id_app. unfold read_id. cbv beta iota.
  rewrite read_repr_str. cbv beta iota.
  rewrite split_comma_app.
  - cbv beta iota. rewrite read_repr_str. reflexivity.
  - apply pretty_Z_no_char; [ | discriminate].
    intros d. unfold pretty_N_char. repeat case_match; discriminate.
Qed.

(** The confirmation determines the identifier and the output path: two
    calls that print the same line were given the same identifier and
    the same path. *)
Theorem confirmation_determines_its_arguments
        (ligand_id ligand_id' : res_id) (output_pdb output_pdb' : string) :
  confirmation ligand_id output_pdb = confirmation ligand_id' output_pdb' ->
  ligand_id = ligand_id' /\ output_pdb = output_pdb'.
Proof.
  destruct ligand_id as [[h n] i], ligand_id' as [[h' n'] i'].
  unfold confirmation. intros Heq.
  apply (inj (String.app "Ligand '")) in Heq.
  apply (f_equal read_id) in Heq. rewrite !read_id_str in Heq.
  injection Heq as -> Hn -> Hrest.
  apply (inj pretty) in Hn as ->.
  change (output_pdb +:+ "'" = output_pdb' +:+ "'") in Hrest.
  apply append_inv_tail in Hrest as ->. split; reflexivity.
Qed.

Lemma confirmation_determines_its_arguments_witness :
  confirmation Sample.ligand_id Sample.output_pdb
  = confirmation ligand_identifier output_pdb_file
  /\ Sample.ligand_id = ligand_identifier
  /\ Sample.output_pdb = output_pdb_file.
Proof.
  split; [reflexivity | ].
  apply (confirmation_determines_its_arguments
           Sample.ligand_id ligand_identifier
           Sample.output_pdb output_pdb_file).
  reflexivity.
Defined.

(** ** The confirmation is one line *)

Lemma repr_char_no_newline (q c : ascii) :
  q = squote \/ q = dquote -> has_char "010" (repr_char q c) = false.
Proof.
  intros [-> | ->]; destruct c as [[] [] [] [] [] [] [] []]; reflexivity.
Qed.

Lemma repr_str_no_newline (s : string) : has_char "010" (repr_str s) = false.
Proof.
  assert (Hc : forall q, q = squote \/ q = dquote ->
                         has_char "010" (repr_chars q s) = false).
  { intros q Hq. induction s as [ | c s IH]; [reflexivity | ].
    cbn [repr_chars]. now rewrite has_char_app, repr_char_no_newline, IH. }
  unfold repr_str.
  destruct (has_char squote s && negb (has_char dquote s));
    cbn [has_char]; rewrite has_char_app, Hc by auto; reflexivity.
Qed.

(** The line printed contains a line break exactly when the output path
    does: line breaks in the identifier's strings are written escaped. *)
Theorem confirmation_breaks_only_in_the_path (ligand_id : res_id)
        (output_pdb : string) :
  has_char "010" (confirmation ligand_id output_pdb)
  = has_char "010" output_pdb.
Proof.
  destruct ligand_id as [[h n] i]. unfold confirmation, str_id, repr_int.
  rewrite !has_char_app, !repr_str_no_newline.
  rewrite pretty_Z_no_char.
  - cbn. now rewrite orb_false_r.
  - intros d. unfold pretty_N_char. repeat case_match; discriminate.
  - discriminate.
Qed.
